(** * Renovation funding optimiser: tax calculator and scenario search

    Shallow embedding of [tax-optimization-model.py]:
    - [calculate_tax_impact] with its inner [calculate_bracket_tax];
    - [optimize_funding_mix] with the grid of first-year sales built by
      [np.arange], the per-year loop and the final [min].

    The program computes on Python/numpy floats.  The embedding is written
    once over an interface [PyNum] of the operations the source uses and is
    instantiated twice:
    - [float] (binary64, round to nearest even): what CPython and numpy
      execute; concrete runs are evaluated here;
    - [Q] (exact rationals): the idealised arithmetic in which the
      quantified properties are proved.
    Facts that only follow the data flow of the source are proved for every
    instance at once. *)

From Stdlib Require Import ZArith QArith Qround Qabs List Bool Lia Lqa.
From Stdlib Require Import PrimFloat SpecFloat FloatOps.
Import ListNotations.

(** ** Numbers *)

(** The arithmetic the source performs on its numbers.  [ceil] is the
    conversion [ceil(value)] to a machine index done by [np.arange]; it has
    no result on a NaN or out of the index range. *)
Class PyNum (A : Type) := {
  add : A -> A -> A;
  sub : A -> A -> A;
  mul : A -> A -> A;
  div : A -> A -> A;
  ltb : A -> A -> bool;
  eqb : A -> A -> bool;
  signbit : A -> bool;
  of_Z : Z -> A;
  ceil : A -> option Z
}.

Module QNum.

Definition ltb (x y : Q) : bool := negb (Qle_bool y x).

Definition signbit (x : Q) : bool := (Qnum x <? 0)%Z.

Definition ceil (x : Q) : option Z := Some (Qceiling x).

End QNum.

#[export] Instance Q_PyNum : PyNum Q := {
  add := Qplus;
  sub := Qminus;
  mul := Qmult;
  div := Qdiv;
  ltb := QNum.ltb;
  eqb := Qeq_bool;
  signbit := QNum.signbit;
  of_Z := inject_Z;
  ceil := QNum.ceil
}.

Module FNum.

(** Python's [float(n)] for an integer [n]: the nearest binary64. *)
Definition of_Z (z : Z) : float := SF2Prim (binary_normalize prec emax z 0 false).

(** [_arange_safe_ceil_to_intp]: [ceil] of a double as an [npy_intp];
    NaN and values outside [-2^63, 2^63] are errors. *)
Definition ceil (f : float) : option Z :=
  match Prim2SF f with
  | S754_zero _ => Some 0%Z
  | S754_finite s m e =>
      let v :=
        match e with
        | Zneg k =>
            if s then (- (Zpos m / 2 ^ Zpos k))%Z
            else (- ((- Zpos m) / 2 ^ Zpos k))%Z
        | _ => ((if s then -1 else 1) * Zpos m * 2 ^ e)%Z
        end in
      if ((- 2 ^ 63 <=? v) && (v <=? 2 ^ 63))%Z then Some v else None
  | S754_infinity _ | S754_nan => None
  end.

End FNum.

#[export] Instance float_PyNum : PyNum float := {
  add := PrimFloat.add;
  sub := PrimFloat.sub;
  mul := PrimFloat.mul;
  div := PrimFloat.div;
  ltb := PrimFloat.ltb;
  eqb := PrimFloat.eqb;
  signbit := PrimFloat.get_sign;
  of_Z := FNum.of_Z;
  ceil := FNum.ceil
}.

(** ** Exceptions and results *)

Inductive exn : Type :=
| ZeroDivisionError
| ValueError.

Inductive result (T : Type) : Type :=
| Ok : T -> result T
| Raise : exn -> result T.

Arguments Ok {T} _.
Arguments Raise {T} _.

Definition bind {T U : Type} (r : result T) (k : T -> result U) : result U :=
  match r with
  | Ok x => k x
  | Raise e => Raise e
  end.

Notation "x <- c ;; k" := (bind c (fun x => k))
  (at level 61, c at next level, right associativity).

(** One row of the returned DataFrame. *)
Record YearlyRecord (A : Type) : Type := {
  Year : Z;
  Stock_Sold : A;
  LOC_Used : A;
  Tax_Paid : A;
  Interest_Paid : A;
  Total_Cost : A
}.

Arguments Year {A} _.
Arguments Stock_Sold {A} _.
Arguments LOC_Used {A} _.
Arguments Tax_Paid {A} _.
Arguments Interest_Paid {A} _.
Arguments Total_Cost {A} _.

Section Program.

Context {A : Type} `{PyNum A}.

Definition zero : A := of_Z 0.

(** A decimal literal [m / 10^k] of the source.  On binary64 both
    operands are exact, so the division rounds to the double nearest
    to the literal, as Python's parser does. *)
Definition lit (m : Z) (k : nat) : A := div (of_Z m) (of_Z (10 ^ Z.of_nat k)).

Definition gtb (x y : A) : bool := ltb y x.

(** *** calculate_tax_impact *)

Definition federal_brackets : list A :=
  map of_Z [0; 53359; 106717; 165430; 235675]%Z.
Definition federal_rates : list A :=
  [lit 15 2; lit 205 3; lit 26 2; lit 29 2; lit 33 2].
Definition bc_brackets : list A :=
  map of_Z [0; 45654; 91310; 104835; 127299; 172602; 240716]%Z.
Definition bc_rates : list A :=
  [lit 506 4; lit 77 3; lit 105 3; lit 1229 4; lit 147 3; lit 168 3; lit 205 3].

(** The [for i in range(len(brackets)-1)] loop, on the indices still to
    visit.  The result is [(tax, remaining)] when the loop ends;
    the second branch is the [break]. *)
Fixpoint bracket_loop (brackets rates : list A) (idx : list nat)
    (tax remaining : A) : A * A :=
  match idx with
  | [] => (tax, remaining)
  | i :: rest =>
      let bracket_size := sub (nth (i + 1) brackets zero) (nth i brackets zero) in
      if gtb remaining bracket_size then
        bracket_loop brackets rates rest
          (add tax (mul bracket_size (nth i rates zero)))
          (sub remaining bracket_size)
      else
        (add tax (mul remaining (nth i rates zero)), remaining)
  end.

Definition calculate_bracket_tax (amount : A) (brackets rates : list A) : A :=
  let '(tax, remaining) :=
    bracket_loop brackets rates (seq 0 (length brackets - 1)) zero amount in
  if gtb remaining zero then add tax (mul remaining (last rates zero))
  else tax.

Definition calculate_tax_impact (capital_gain : A) : A :=
  let taxable_gain := mul capital_gain (lit 5 1) in
  let federal_tax := calculate_bracket_tax taxable_gain federal_brackets federal_rates in
  let provincial_tax := calculate_bracket_tax taxable_gain bc_brackets bc_rates in
  add federal_tax provincial_tax.

(** *** optimize_funding_mix *)

(** [np.arange(start, stop, step)] on float arguments, after numpy's
    [_calc_length] and the [fill] loop of the float64 type:
    the length is [ceil((stop - start) / step)], the quotient being a
    Python float division, which raises on a zero divisor; the entries
    are [start], [start + step] and [start + i * delta] with
    [delta = (start + step) - start]. *)
Definition arange_fill (start next : A) (length : nat) : list A :=
  match length with
  | O => []
  | S O => [start]
  | S (S n) =>
      let delta := sub next start in
      start :: next ::
        map (fun i => add start (mul (of_Z (Z.of_nat i)) delta)) (seq 2 n)
  end.

Definition arange_length (start stop step : A) : result Z :=
  let next := sub stop start in
  if eqb step zero then Raise ZeroDivisionError
  else
    let val := div next step in
    if negb (eqb next zero) && eqb val zero then
      Ok (if signbit val then 0 else 1)%Z
    else
      match ceil val with
      | Some len => Ok len
      | None => Raise ValueError
      end.

Definition np_arange (start stop step : A) : result (list A) :=
  len <- arange_length start stop step ;;
  Ok (arange_fill start (add start step) (Z.to_nat len)).

(** Python's [min(a, b)]: the first argument unless the second is
    strictly smaller. *)
Definition py_min (a b : A) : A := if ltb b a then b else a.

(** Python's [min(xs, key=lambda x: x[0])]: the first element of least
    key; [ValueError] on an empty sequence. *)
Definition min_by_cost {T : Type} (xs : list (A * T)) : result (A * T) :=
  match xs with
  | [] => Raise ValueError
  | x :: rest =>
      Ok (fold_left (fun best y => if ltb (fst y) (fst best) then y else best)
            rest x)
  end.

(** The variables the loop over the years updates. *)
Record loop_state : Type := {
  remaining : A;
  scenario_cost : A;
  scenario_detail : list (YearlyRecord A);
  loc_balance : A
}.

Section Scenario.

Variables (total_amount stock_value capital_gain interest_rate : A).
Variable (years : Z).

(** Body of [for year in range(years)]. *)
Definition year_body (first_year_sale yearly_sale : A)
    (st : loop_state) (year : nat) : loop_state :=
  let stock_sold :=
    if (year =? 0)%nat then first_year_sale
    else py_min yearly_sale (remaining st) in
  let remaining' :=
    if (year =? 0)%nat then remaining st
    else sub (remaining st) stock_sold in
  let year_capital_gain :=
    if gtb stock_value zero then mul (div stock_sold stock_value) capital_gain
    else zero in
  let tax_paid := calculate_tax_impact year_capital_gain in
  let loc_used := sub total_amount stock_sold in
  let interest_paid := mul (loc_balance st) interest_rate in
  let total_year_cost := add tax_paid interest_paid in
  {| remaining := remaining';
     scenario_cost := add (scenario_cost st) total_year_cost;
     scenario_detail :=
       scenario_detail st ++
         [ {| Year := Z.of_nat year + 1;
              Stock_Sold := stock_sold;
              LOC_Used := loc_used;
              Tax_Paid := tax_paid;
              Interest_Paid := interest_paid;
              Total_Cost := total_year_cost |} ];
     loc_balance := loc_used |}.

Definition yearly_sale_of (first_year_sale : A) : A :=
  if (1 <? years)%Z then div (sub stock_value first_year_sale) (of_Z (years - 1))
  else zero.

Definition initial_state (first_year_sale : A) : loop_state :=
  {| remaining := sub stock_value first_year_sale;
     scenario_cost := zero;
     scenario_detail := [];
     loc_balance := total_amount |}.

(** The loop state after the given years of one scenario. *)
Definition run_years (first_year_sale : A) (range : list nat) : loop_state :=
  fold_left (year_body first_year_sale (yearly_sale_of first_year_sale))
    range (initial_state first_year_sale).

(** Body of [for first_year_sale in np.arange(...)]: the pair appended
    to [scenarios]. *)
Definition evaluate_scenario (first_year_sale : A) : A * list (YearlyRecord A) :=
  let st := run_years first_year_sale (seq 0 (Z.to_nat years)) in
  (scenario_cost st, scenario_detail st).

Definition step : A := div stock_value (of_Z 10).

Definition first_year_sales : result (list A) :=
  np_arange zero (add stock_value step) step.

Definition scenarios : result (list (A * list (YearlyRecord A))) :=
  grid <- first_year_sales ;;
  Ok (map evaluate_scenario grid).

Definition optimize_funding_mix : result (list (YearlyRecord A)) :=
  all <- scenarios ;;
  optimal_scenario <- min_by_cost all ;;
  Ok (snd optimal_scenario).

End Scenario.

End Program.

(** ** Quantities the properties speak about *)

Section Observations.

Context {A : Type} `{PyNum A}.

(** Sum of a column, added from the first row on. *)
Definition column_sum (xs : list A) : A := fold_left add xs zero.

(** Sum of [Stock_Sold] over the rows. *)
Definition total_sold (rows : list (YearlyRecord A)) : A :=
  column_sum (map Stock_Sold rows).

(** Amount sold through year [y] (years counted from 1). *)
Definition cumulative_sold (rows : list (YearlyRecord A)) (y : nat) : A :=
  total_sold (firstn y rows).

(** The balance the loop holds after the rows: the [LOC_Used] of the
    last one, or the starting balance. *)
Definition final_balance (start : A) (rows : list (YearlyRecord A)) : A :=
  fold_left (fun _ r => LOC_Used r) rows start.

Variables (total_amount stock_value capital_gain interest_rate : A).

(** The gain realised by a sale, as [year_body] computes it. *)
Definition year_capital_gain (stock_sold : A) : A :=
  if gtb stock_value zero then mul (div stock_sold stock_value) capital_gain
  else zero.

(** What [year_body] writes into a row, given the balance it found. *)
Definition row_follows (prior_balance : A) (r : YearlyRecord A) : Prop :=
  LOC_Used r = sub total_amount (Stock_Sold r) /\
  Interest_Paid r = mul prior_balance interest_rate /\
  Tax_Paid r = calculate_tax_impact (year_capital_gain (Stock_Sold r)) /\
  Total_Cost r = add (Tax_Paid r) (Interest_Paid r).

(** Every row follows from the balance left by the row before. *)
Fixpoint rows_follow (prior_balance : A) (rows : list (YearlyRecord A)) : Prop :=
  match rows with
  | [] => True
  | r :: rest => row_follows prior_balance r /\ rows_follow (LOC_Used r) rest
  end.

(** The invariant of the loop over the years. *)
Definition balance_tracked (st : loop_state) : Prop :=
  rows_follow total_amount (scenario_detail st) /\
  loc_balance st = final_balance total_amount (scenario_detail st).

End Observations.

(** ** The example run at the end of the script *)

Module Script.

Definition renovation_cost : float := of_Z 1000000.
Definition stock_value : float := of_Z 350000.
Definition capital_gain : float := of_Z 300000.
Definition interest_rate : float := lit 7 2.

Definition result : result (list (YearlyRecord float)) :=
  optimize_funding_mix renovation_cost stock_value capital_gain interest_rate 5.

End Script.

(** * Properties that hold in every arithmetic *)

Section Generic.

Context {A : Type} `{PyNum A}.

Variables (total_amount stock_value capital_gain interest_rate : A).
Variable (years : Z).

Lemma final_balance_app (start : A) (rows : list (YearlyRecord A)) (r : YearlyRecord A) :
  final_balance start (rows ++ [r]) = LOC_Used r.
Proof.
  unfold final_balance. rewrite fold_left_app. reflexivity.
Qed.

Lemma rows_follow_app (start : A) (rows : list (YearlyRecord A)) (r : YearlyRecord A) :
  rows_follow total_amount stock_value capital_gain interest_rate start rows ->
  row_follows total_amount stock_value capital_gain interest_rate
    (final_balance start rows) r ->
  rows_follow total_amount stock_value capital_gain interest_rate start (rows ++ [r]).
Proof.
  revert start. induction rows as [|r0 rows IH]; intros start Hrows Hr; simpl in *.
  - split; [exact Hr | exact I].
  - destruct Hrows as [H0 Hrest]. split; [exact H0|].
    apply IH; assumption.
Qed.

Lemma year_body_tracked (first_year_sale yearly_sale : A) (st : loop_state) (year : nat) :
  balance_tracked total_amount stock_value capital_gain interest_rate st ->
  balance_tracked total_amount stock_value capital_gain interest_rate
    (year_body total_amount stock_value capital_gain interest_rate
       first_year_sale yearly_sale st year).
Proof.
  intros [Hrows Hbal]. split.
  - cbn [scenario_detail year_body]. apply rows_follow_app; [exact Hrows|].
    rewrite <- Hbal. repeat split.
  - cbn [scenario_detail loc_balance year_body].
    rewrite final_balance_app. reflexivity.
Qed.

Lemma fold_year_body_tracked (first_year_sale yearly_sale : A) (range : list nat)
    (st : loop_state) :
  balance_tracked total_amount stock_value capital_gain interest_rate st ->
  balance_tracked total_amount stock_value capital_gain interest_rate
    (fold_left
       (year_body total_amount stock_value capital_gain interest_rate
          first_year_sale yearly_sale) range st).
Proof.
  revert st. induction range as [|y range IH]; intros st Hst; simpl.
  - exact Hst.
  - apply IH, year_body_tracked, Hst.
Qed.

Lemma run_years_tracked (first_year_sale : A) (range : list nat) :
  balance_tracked total_amount stock_value capital_gain interest_rate
    (run_years total_amount stock_value capital_gain interest_rate years
       first_year_sale range).
Proof.
  apply fold_year_body_tracked. split; [exact I | reflexivity].
Qed.

Lemma evaluate_scenario_follows (first_year_sale : A) :
  rows_follow total_amount stock_value capital_gain interest_rate total_amount
    (snd (evaluate_scenario total_amount stock_value capital_gain
            interest_rate years first_year_sale)).
Proof.
  apply run_years_tracked.
Qed.

(** Reading [rows_follow] row by row. *)
Lemma rows_follow_nth (start : A) (rows : list (YearlyRecord A)) (n : nat)
    (r : YearlyRecord A) :
  rows_follow total_amount stock_value capital_gain interest_rate start rows ->
  nth_error rows n = Some r ->
  row_follows total_amount stock_value capital_gain interest_rate
    (final_balance start (firstn n rows)) r.
Proof.
  revert start n. induction rows as [|r0 rows IH]; intros start n Hrows Hn.
  - destruct n; discriminate.
  - destruct Hrows as [H0 Hrest]. destruct n as [|n]; simpl in *.
    + injection Hn as <-. exact H0.
    + apply (IH _ _ Hrest Hn).
Qed.

Lemma final_balance_firstn_S (start : A) (rows : list (YearlyRecord A)) (n : nat)
    (r : YearlyRecord A) :
  nth_error rows n = Some r ->
  final_balance start (firstn (S n) rows) = LOC_Used r.
Proof.
  revert start n. induction rows as [|r0 rows IH]; intros start n Hn.
  - destruct n; discriminate.
  - destruct n as [|n].
    + injection Hn as <-. reflexivity.
    + apply (IH (LOC_Used r0) _ Hn).
Qed.

(** [min] returns one of the scenarios, and fails only without any. *)
Lemma min_by_cost_In (T : Type) (xs : list (A * T)) (x : A * T) :
  min_by_cost xs = Ok x -> In x xs.
Proof.
  destruct xs as [|x0 rest]; simpl; [discriminate|].
  intros Hx. injection Hx as <-.
  assert (Hgen : forall (l : list (A * T)) (b : A * T), fold_left
            (fun best y => if ltb (fst y) (fst best) then y else best) l b = b \/
          In (fold_left
            (fun best y => if ltb (fst y) (fst best) then y else best) l b) l).
  { induction l as [|y l IH]; intros b; simpl; [left; reflexivity|].
    destruct (IH (if ltb (fst y) (fst b) then y else b)) as [-> | Hin].
    - destruct (ltb (fst y) (fst b)); [right; left|left]; reflexivity.
    - right; right; exact Hin. }
  destruct (Hgen rest x0) as [-> | Hin]; [left; reflexivity | right; exact Hin].
Qed.

Lemma optimize_funding_mix_inv (rows : list (YearlyRecord A)) :
  optimize_funding_mix total_amount stock_value capital_gain interest_rate years
    = Ok rows ->
  exists grid first_year_sale,
    first_year_sales stock_value = Ok grid /\
    In first_year_sale grid /\
    rows = snd (evaluate_scenario total_amount stock_value capital_gain
                  interest_rate years first_year_sale).
Proof.
  unfold optimize_funding_mix, scenarios.
  destruct (first_year_sales stock_value) as [grid|e]; simpl; [|discriminate].
  destruct (min_by_cost _) as [best|e] eqn:Hmin; simpl; [|discriminate].
  intros Hrows. injection Hrows as <-.
  apply min_by_cost_In, in_map_iff in Hmin.
  destruct Hmin as (f & <- & Hf). exists grid, f. auto.
Qed.

Lemma optimize_funding_mix_total (grid : list A) :
  first_year_sales stock_value = Ok grid ->
  grid <> [] ->
  exists rows,
    optimize_funding_mix total_amount stock_value capital_gain interest_rate years
      = Ok rows.
Proof.
  intros Hgrid Hne. unfold optimize_funding_mix, scenarios.
  rewrite Hgrid. simpl. destruct grid as [|f grid]; [contradiction|].
  simpl. eexists. reflexivity.
Qed.

Lemma scenarios_inv (all : list (A * list (YearlyRecord A))) :
  scenarios total_amount stock_value capital_gain interest_rate years = Ok all ->
  exists grid,
    first_year_sales stock_value = Ok grid /\
    all = map (evaluate_scenario total_amount stock_value capital_gain
                 interest_rate years) grid.
Proof.
  unfold scenarios.
  destruct (first_year_sales stock_value) as [grid|e]; simpl; [|discriminate].
  intros Hall. injection Hall as <-. exists grid. auto.
Qed.

(** The loop only appends rows, one per year. *)
Lemma fold_year_body_detail (first_year_sale yearly_sale : A) (range : list nat)
    (st : loop_state) :
  exists more,
    scenario_detail
      (fold_left
         (year_body total_amount stock_value capital_gain interest_rate
            first_year_sale yearly_sale) range st)
      = scenario_detail st ++ more /\
    length more = length range.
Proof.
  revert st. induction range as [|y range IH]; intros st; simpl.
  - exists []. rewrite app_nil_r. auto.
  - destruct (IH (year_body total_amount stock_value capital_gain interest_rate
                    first_year_sale yearly_sale st y)) as (more & Hd & Hlen).
    cbn [scenario_detail year_body] in Hd. rewrite <- app_assoc in Hd.
    eexists. split; [exact Hd|]. simpl. rewrite Hlen. reflexivity.
Qed.

Lemma run_years_length (first_year_sale : A) (range : list nat) :
  length
    (scenario_detail
       (run_years total_amount stock_value capital_gain interest_rate years
          first_year_sale range))
    = length range.
Proof.
  unfold run_years.
  destruct (fold_year_body_detail first_year_sale
              (yearly_sale_of stock_value years first_year_sale) range
              (initial_state total_amount stock_value first_year_sale))
    as (more & -> & Hlen).
  exact Hlen.
Qed.

Lemma evaluate_scenario_length (first_year_sale : A) :
  length
    (snd (evaluate_scenario total_amount stock_value capital_gain
            interest_rate years first_year_sale))
    = Z.to_nat years.
Proof.
  unfold evaluate_scenario. cbn [snd].
  rewrite run_years_length. apply length_seq.
Qed.

(** The rows after the first [m] years are the first [m] rows of the scenario. *)
Lemma run_years_prefix (first_year_sale : A) (m : nat) :
  (m <= Z.to_nat years)%nat ->
  scenario_detail
    (run_years total_amount stock_value capital_gain interest_rate years
       first_year_sale (seq 0 m))
    = firstn m
        (snd (evaluate_scenario total_amount stock_value capital_gain
                interest_rate years first_year_sale)).
Proof.
  intros Hm. unfold evaluate_scenario. cbn [snd].
  replace (Z.to_nat years) with (m + (Z.to_nat years - m))%nat by lia.
  rewrite seq_app. unfold run_years at 2. rewrite fold_left_app.
  fold (run_years total_amount stock_value capital_gain interest_rate years
          first_year_sale (seq 0 m)).
  destruct (fold_year_body_detail first_year_sale
              (yearly_sale_of stock_value years first_year_sale)
              (seq (0 + m) (Z.to_nat years - m))
              (run_years total_amount stock_value capital_gain interest_rate
                 years first_year_sale (seq 0 m)))
    as (more & -> & _).
  pose proof (run_years_length first_year_sale (seq 0 m)) as Hlen.
  rewrite length_seq in Hlen.
  rewrite firstn_app, Hlen, Nat.sub_diag, firstn_O, app_nil_r.
  symmetry. apply firstn_all2. rewrite Hlen. apply Nat.le_refl.
Qed.

(** The balance held after year [y + 1] is the [LOC_Used] of its row. *)
Lemma loc_balance_after_year (first_year_sale : A) (y : nat) (r : YearlyRecord A) :
  nth_error
    (snd (evaluate_scenario total_amount stock_value capital_gain
            interest_rate years first_year_sale)) y = Some r ->
  loc_balance
    (run_years total_amount stock_value capital_gain interest_rate years
       first_year_sale (seq 0 (S y)))
    = LOC_Used r.
Proof.
  intros Hr.
  destruct (run_years_tracked first_year_sale (seq 0 (S y))) as [_ ->].
  rewrite run_years_prefix.
  - apply final_balance_firstn_S, Hr.
  - rewrite <- (evaluate_scenario_length first_year_sale).
    apply Nat.le_succ_l, nth_error_Some. rewrite Hr. discriminate.
Qed.

Lemma scenarios_In (all : list (A * list (YearlyRecord A))) (cost : A)
    (rows : list (YearlyRecord A)) :
  scenarios total_amount stock_value capital_gain interest_rate years = Ok all ->
  In (cost, rows) all ->
  exists grid first_year_sale,
    first_year_sales stock_value = Ok grid /\
    In first_year_sale grid /\
    (cost, rows) = evaluate_scenario total_amount stock_value capital_gain
                     interest_rate years first_year_sale.
Proof.
  intros Hall Hin. destruct (scenarios_inv _ Hall) as (grid & Hgrid & ->).
  apply in_map_iff in Hin. destruct Hin as (f & Hf & Hin).
  exists grid, f. auto.
Qed.

(** C10. In every generated scenario, whatever its first-year sale, the
    interest of year 1 is total_amount * interest_rate, and the interest of
    each later year is (total_amount - the amount sold in the year just
    before) * interest_rate; every year of the horizon has its row.  This
    holds in binary64 as in exact arithmetic. *)
Theorem interest_follows_previous_year_sale
    (all : list (A * list (YearlyRecord A))) (cost : A)
    (rows : list (YearlyRecord A)) :
  scenarios total_amount stock_value capital_gain interest_rate years = Ok all ->
  In (cost, rows) all ->
  length rows = Z.to_nat years /\
  (forall r, nth_error rows 0 = Some r ->
     Interest_Paid r = mul total_amount interest_rate) /\
  (forall y r r',
     nth_error rows y = Some r ->
     nth_error rows (S y) = Some r' ->
     Interest_Paid r' = mul (sub total_amount (Stock_Sold r)) interest_rate).
Proof.
  intros Hall Hin.
  destruct (scenarios_In _ _ _ Hall Hin) as (grid & f & _ & _ & Heq).
  assert (Hrows : rows = snd (evaluate_scenario total_amount stock_value
                                capital_gain interest_rate years f))
    by (rewrite <- Heq; reflexivity).
  pose proof (evaluate_scenario_follows f) as Hfollow. rewrite <- Hrows in Hfollow.
  split; [rewrite Hrows; apply evaluate_scenario_length|]. split.
  - intros r Hr. apply (rows_follow_nth _ _ _ _ Hfollow Hr).
  - intros y r r' Hr Hr'.
    destruct (rows_follow_nth _ _ _ _ Hfollow Hr) as (Hloc & _).
    destruct (rows_follow_nth _ _ _ _ Hfollow Hr') as (_ & Hint & _).
    rewrite (final_balance_firstn_S _ _ _ _ Hr), Hloc in Hint. exact Hint.
Qed.

(** C2, as the code has it.  In every evaluated scenario the credit balance
    of year y's row is total_amount minus the amount sold in year y alone
    (not the amount sold through year y); the balance the loop holds after
    year y is that same quantity, and the interest of year y+1 is computed
    from it. *)
Theorem credit_balance_counts_one_year_sale
    (all : list (A * list (YearlyRecord A))) (cost : A)
    (rows : list (YearlyRecord A)) :
  scenarios total_amount stock_value capital_gain interest_rate years = Ok all ->
  In (cost, rows) all ->
  exists first_year_sale,
    rows = snd (evaluate_scenario total_amount stock_value capital_gain
                  interest_rate years first_year_sale) /\
    forall y r,
      nth_error rows y = Some r ->
      LOC_Used r = sub total_amount (Stock_Sold r) /\
      loc_balance
        (run_years total_amount stock_value capital_gain interest_rate years
           first_year_sale (seq 0 (S y)))
        = sub total_amount (Stock_Sold r) /\
      forall r',
        nth_error rows (S y) = Some r' ->
        Interest_Paid r' =
          mul (loc_balance
                 (run_years total_amount stock_value capital_gain interest_rate
                    years first_year_sale (seq 0 (S y))))
              interest_rate.
Proof.
  intros Hall Hin.
  destruct (scenarios_In _ _ _ Hall Hin) as (grid & f & _ & _ & Heq).
  assert (Hrows : rows = snd (evaluate_scenario total_amount stock_value
                                capital_gain interest_rate years f))
    by (rewrite <- Heq; reflexivity).
  exists f. split; [exact Hrows|].
  pose proof (evaluate_scenario_follows f) as Hfollow. rewrite <- Hrows in Hfollow.
  intros y r Hr.
  destruct (rows_follow_nth _ _ _ _ Hfollow Hr) as (Hloc & _).
  assert (Hbal : loc_balance
                   (run_years total_amount stock_value capital_gain
                      interest_rate years f (seq 0 (S y))) = LOC_Used r)
    by (apply loc_balance_after_year; rewrite <- Hrows; exact Hr).
  split; [exact Hloc|]. split; [rewrite Hbal; exact Hloc|].
  intros r' Hr'.
  destruct (rows_follow_nth _ _ _ _ Hfollow Hr') as (_ & Hint & _).
  rewrite (final_balance_firstn_S _ _ _ _ Hr) in Hint.
  rewrite Hbal. exact Hint.
Qed.

(** Below one year the loop over the years does not run: no scenario has
    a row. *)
Lemma short_horizon_no_rows (rows : list (YearlyRecord A)) :
  (years < 1)%Z ->
  optimize_funding_mix total_amount stock_value capital_gain interest_rate years
    = Ok rows ->
  rows = [].
Proof.
  intros Hyears Hrows.
  destruct (optimize_funding_mix_inv _ Hrows) as (_ & f & _ & _ & ->).
  apply length_zero_iff_nil. rewrite evaluate_scenario_length. lia.
Qed.

End Generic.

(** * Properties in exact arithmetic *)

Section Exact.

Open Scope Q_scope.

(** Shows the operations of the interface as those of [Q]. *)
Ltac exact_ops :=
  unfold gtb in *;
  change (@zero Q Q_PyNum) with 0 in *;
  change (@of_Z Q Q_PyNum) with inject_Z in *;
  change (@add Q Q_PyNum) with Qplus in *;
  change (@sub Q Q_PyNum) with Qminus in *;
  change (@mul Q Q_PyNum) with Qmult in *;
  change (@div Q Q_PyNum) with Qdiv in *;
  change (@ltb Q Q_PyNum) with QNum.ltb in *;
  change (@eqb Q Q_PyNum) with Qeq_bool in *;
  change (@ceil Q Q_PyNum) with QNum.ceil in *;
  change (inject_Z 0) with 0 in *;
  change (inject_Z 1) with 1 in *;
  change (inject_Z 10) with 10 in *.

Lemma Qltb_true (x y : Q) : QNum.ltb x y = true <-> x < y.
Proof.
  unfold QNum.ltb. rewrite negb_true_iff, <- not_true_iff_false, Qle_bool_iff.
  split; [apply Qnot_le_lt | apply Qlt_not_le].
Qed.

Lemma Qltb_false (x y : Q) : QNum.ltb x y = false <-> y <= x.
Proof.
  unfold QNum.ltb. rewrite negb_false_iff. apply Qle_bool_iff.
Qed.

(** The bracket walk never leaves the non-negative numbers. *)
Lemma bracket_loop_nonneg (brackets rates : list Q) (idx : list nat) (tax remaining : Q) :
  (forall i, In i idx -> 0 <= nth (i + 1) brackets 0 - nth i brackets 0) ->
  (forall i, 0 <= nth i rates 0) ->
  0 <= tax -> 0 <= remaining ->
  0 <= fst (bracket_loop brackets rates idx tax remaining) /\
  0 <= snd (bracket_loop brackets rates idx tax remaining).
Proof.
  intros Hsize Hrate. revert tax remaining.
  induction idx as [|i idx IH]; intros tax remaining Htax Hrem; simpl.
  - auto.
  - pose proof (Hsize i (or_introl eq_refl)) as Hi.
    pose proof (Hrate i) as Hr.
    exact_ops.
    destruct (QNum.ltb _ remaining) eqn:Hcmp.
    + apply Qltb_true in Hcmp. apply IH.
      * intros j Hj. apply Hsize. right. exact Hj.
      * pose proof (Qmult_le_0_compat _ _ Hi Hr). lra.
      * lra.
    + simpl. pose proof (Qmult_le_0_compat _ _ Hrem Hr). split; lra.
Qed.

Lemma calculate_bracket_tax_nonneg (amount : Q) (brackets rates : list Q) :
  (forall i, In i (seq 0 (length brackets - 1)) ->
     0 <= nth (i + 1) brackets 0 - nth i brackets 0) ->
  (forall i, 0 <= nth i rates 0) ->
  0 <= last rates 0 ->
  0 <= amount ->
  0 <= calculate_bracket_tax amount brackets rates.
Proof.
  intros Hsize Hrate Hlast Hamount. unfold calculate_bracket_tax.
  destruct (bracket_loop_nonneg brackets rates (seq 0 (length brackets - 1))
              0 amount Hsize Hrate (Qle_refl 0) Hamount) as [Htax Hrem].
  exact_ops.
  destruct (bracket_loop brackets rates _ 0 amount) as [tax remaining].
  simpl in Htax, Hrem.
  destruct (QNum.ltb 0 remaining); [|exact Htax].
  pose proof (Qmult_le_0_compat _ _ Hrem Hlast). lra.
Qed.

Lemma nth_nonneg (l : list Q) :
  Forall (fun x => 0 <= x) l -> forall i, 0 <= nth i l 0.
Proof.
  intros Hl i. destruct (Nat.lt_ge_cases i (length l)) as [Hlt|Hge].
  - apply (proj1 (Forall_forall _ l) Hl), nth_In, Hlt.
  - rewrite nth_overflow by exact Hge. apply Qle_refl.
Qed.

Lemma calculate_tax_impact_nonneg (capital_gain : Q) :
  0 <= capital_gain -> 0 <= calculate_tax_impact capital_gain.
Proof.
  intros Hgain. unfold calculate_tax_impact.
  assert (Htaxable : 0 <= mul capital_gain (lit 5 1)).
  { change (0 <= capital_gain * (5 # 10)). lra. }
  assert (Hfederal : 0 <= calculate_bracket_tax (mul capital_gain (lit 5 1))
                            federal_brackets federal_rates).
  { apply calculate_bracket_tax_nonneg; try exact Htaxable.
    - intros i Hi. simpl in Hi.
      repeat (destruct Hi as [<- | Hi]; [vm_compute; discriminate|]). contradiction.
    - apply nth_nonneg. repeat constructor; vm_compute; discriminate.
    - vm_compute; discriminate. }
  assert (Hprovincial : 0 <= calculate_bracket_tax (mul capital_gain (lit 5 1))
                               bc_brackets bc_rates).
  { apply calculate_bracket_tax_nonneg; try exact Htaxable.
    - intros i Hi. simpl in Hi.
      repeat (destruct Hi as [<- | Hi]; [vm_compute; discriminate|]). contradiction.
    - apply nth_nonneg. repeat constructor; vm_compute; discriminate.
    - vm_compute; discriminate. }
  exact_ops. lra.
Qed.

(** The grid of first-year sales: 11 points from 0 to the asset value. *)
Lemma arange_length_exact (stock_value : Q) :
  ~ stock_value == 0 ->
  arange_length zero (add stock_value (step stock_value)) (step stock_value)
    = Ok 11%Z.
Proof.
  intros Hsv. unfold arange_length, step.
  exact_ops.
  assert (Hval : (stock_value + stock_value / 10 - 0) / (stock_value / 10) == 11)
    by (field; exact Hsv).
  destruct (Qeq_bool (stock_value / 10) 0) eqn:Hstep.
  { apply Qeq_bool_eq in Hstep. exfalso. apply Hsv.
    rewrite <- (Qmult_div_r stock_value 10) by discriminate.
    rewrite Hstep. reflexivity. }
  destruct (Qeq_bool ((stock_value + stock_value / 10 - 0) / (stock_value / 10)) 0)
    eqn:Hzero.
  { apply Qeq_bool_eq in Hzero. rewrite Hval in Hzero. discriminate. }
  rewrite andb_false_r. unfold QNum.ceil.
  rewrite (Qceiling_comp _ _ Hval). reflexivity.
Qed.

Lemma first_year_sales_exact (stock_value : Q) :
  ~ stock_value == 0 ->
  exists grid,
    first_year_sales stock_value = Ok grid /\
    length grid = 11%nat /\
    Forall2 Qeq grid
      (map (fun k => inject_Z (Z.of_nat k) * step stock_value) (seq 0 11)).
Proof.
  intros Hsv. unfold first_year_sales, np_arange.
  rewrite (arange_length_exact stock_value Hsv). simpl bind.
  change (Z.to_nat 11) with 11%nat.
  eexists. split; [reflexivity|]. split; [reflexivity|].
  cbn [arange_fill map seq]. unfold step.
  exact_ops.
  repeat (apply Forall2_cons; [simpl inject_Z; field|]).
  apply Forall2_nil.
Qed.

Section ExactScenario.

Variables (total_amount stock_value capital_gain interest_rate : Q).
Variable (years : Z).
Variable (first_year_sale : Q).

Hypothesis first_year_sale_le : first_year_sale <= stock_value.








End ExactScenario.

Lemma Forall2_Qeq_bounds (lo hi : Q) (l l' : list Q) :
  Forall2 Qeq l l' ->
  Forall (fun x => lo <= x /\ x <= hi) l' ->
  Forall (fun x => lo <= x /\ x <= hi) l.
Proof.
  induction 1 as [|x x' l l' Hx Hl IH]; intros Hbounds; [constructor|].
  inversion Hbounds as [|y l0 Hy Hl']; subst. constructor.
  - rewrite Hx. exact Hy.
  - apply IH, Hl'.
Qed.

Lemma grid_bounds (stock_value : Q) (grid : list Q) :
  0 < stock_value ->
  first_year_sales stock_value = Ok grid ->
  grid <> [] /\ Forall (fun f => 0 <= f /\ f <= stock_value) grid.
Proof.
  intros Hsv Hgrid.
  destruct (first_year_sales_exact stock_value) as (grid' & Hgrid' & Hlen & Hpts);
    [lra|].
  rewrite Hgrid in Hgrid'. injection Hgrid' as <-.
  split; [intros ->; discriminate|].
  assert (Hpoints : Forall (fun x => 0 <= x /\ x <= stock_value)
                      (map (fun k => inject_Z (Z.of_nat k) * step stock_value)
                         (seq 0 11))).
  { unfold step. exact_ops.
    cbn [map seq].
    assert (Hstep : 10 * (stock_value / 10) == stock_value) by field.
    revert Hstep. generalize (stock_value / 10). intros t Ht.
    repeat match goal with
           | |- context [inject_Z (Z.of_nat ?k)] =>
               let v := eval vm_compute in (inject_Z (Z.of_nat k)) in
               change (inject_Z (Z.of_nat k)) with v
           end.
    repeat (apply Forall_cons; [split; lra|]). apply Forall_nil. }
  exact (Forall2_Qeq_bounds 0 stock_value grid _ Hpts Hpoints).
Qed.




(** C7, as the code has it.  A horizon below one year is not rejected: for a
    non-zero asset value every scenario is empty and the result is the
    empty schedule. *)
Theorem short_horizon_gives_empty_schedule
    (total_amount stock_value capital_gain interest_rate : Q) (years : Z) :
  (years < 1)%Z ->
  ~ stock_value == 0 ->
  optimize_funding_mix total_amount stock_value capital_gain interest_rate years
    = Ok [].
Proof.
  intros Hyears Hsv.
  destruct (first_year_sales_exact stock_value Hsv) as (grid & Hgrid & Hlen & _).
  assert (Hne : grid <> []) by (intros ->; discriminate).
  destruct (optimize_funding_mix_total total_amount stock_value capital_gain
              interest_rate years grid Hgrid Hne) as (rows & Hrows).
  rewrite Hrows. f_equal.
  apply (short_horizon_no_rows _ _ _ _ _ _ Hyears Hrows).
Qed.

End Exact.

(** * Runs of the program *)

(** The binary64 instance reads the constants of the source as Python
    does, and [FNum.ceil] rounds up to an integer. *)
#[local] Set Warnings "-inexact-float".

Example binary64_constants :
  of_Z (A := float) 53359 = 53359%float /\
  of_Z (A := float) (-10000) = (-10000)%float /\
  lit (A := float) 5 1 = 0.5%float /\
  lit (A := float) 15 2 = 0.15%float /\
  lit (A := float) 506 4 = 0.0506%float /\
  lit (A := float) 1229 4 = 0.1229%float /\
  lit (A := float) 7 2 = 0.07%float /\
  FNum.ceil 11%float = Some 11%Z /\
  FNum.ceil 11.000000000000002%float = Some 12%Z /\
  FNum.ceil (-1.5)%float = Some (-1)%Z /\
  FNum.ceil nan = None /\
  FNum.ceil infinity = None.
Proof.
  repeat split; vm_compute; reflexivity.
Qed.

(** C1. [calculate_tax_impact] has no check of its argument: on the
    negative gain -10000 it walks the brackets and returns the tax -1003,
    in binary64 and in exact arithmetic, where the specification and the
    repository's test want an error and no result. *)
Theorem calculate_tax_impact_negative_gain_returns :
  calculate_tax_impact (A := float) (of_Z (-10000)) = (-1003)%float /\
  calculate_tax_impact (A := Q) (of_Z (-10000)) == -1003.
Proof.
  split; vm_compute; reflexivity.
Qed.

(** C9. The tax is not monotone: the gain 91308 is taxed more than the
    larger gain 91310.  After the [break] the amount just taxed is still in
    [remaining] and is taxed once more at the last rate, so the tax drops
    when the taxable base passes a threshold (here 45654, in the
    provincial table). *)
Theorem calculate_tax_impact_not_monotone :
  (ltb (A := float) (of_Z 91308) (of_Z 91310) = true /\
   ltb (A := float) (calculate_tax_impact (of_Z 91310))
     (calculate_tax_impact (of_Z 91308)) = true) /\
  (inject_Z 91308 < inject_Z 91310 /\
   calculate_tax_impact (A := Q) (of_Z 91310) <
     calculate_tax_impact (A := Q) (of_Z 91308)).
Proof.
  repeat split; vm_compute; reflexivity.
Qed.

(** The repository's test of a gain inside the first brackets, 50000,
    documents the tax as (50000 * 0.5) * (0.15 + 0.0506) = 5015; the code
    adds the top rates 0.33 and 0.205 on the same base and returns 18390. *)
Example first_bracket_gain_is_taxed_twice :
  calculate_tax_impact (A := float) (of_Z 50000) = 18390%float /\
  calculate_tax_impact (A := Q) (of_Z 50000) == 18390 /\
  50000 * (1 # 2) * ((15 # 100) + (506 # 10000)) == 5015 /\
  50000 * (1 # 2) * ((15 # 100) + (506 # 10000) + (33 # 100) + (205 # 1000)) == 18390.
Proof.
  repeat split; vm_compute; reflexivity.
Qed.

(** C3. For total_amount=100000, asset_value=50000, total_gain=40000,
    interest_rate=0.10, years=2 the returned optimum sells 50000 in year 1
    and its first row has interest 10000 (the full amount times the rate),
    while (100000 - amount_sold_year_1) * 0.10 is 5000. *)
Theorem year1_interest_is_on_the_full_amount :
  (exists r1 rest,
     optimize_funding_mix (A := float)
       (of_Z 100000) (of_Z 50000) (of_Z 40000) (lit 1 1) 2 = Ok (r1 :: rest) /\
     Stock_Sold r1 = 50000%float /\
     Interest_Paid r1 = 10000%float /\
     mul (sub (of_Z 100000) (Stock_Sold r1)) (lit 1 1) = 5000%float) /\
  (exists r1 rest,
     optimize_funding_mix (A := Q)
       (of_Z 100000) (of_Z 50000) (of_Z 40000) (lit 1 1) 2 = Ok (r1 :: rest) /\
     Stock_Sold r1 == 50000 /\
     Interest_Paid r1 == 10000 /\
     (100000 - Stock_Sold r1) * (1 # 10) == 5000).
Proof.
  split; eexists; eexists; (split; [vm_compute; reflexivity|]);
    repeat split; vm_compute; reflexivity.
Qed.

(** C6. With asset_value 0 the step is 0 and [np.arange] raises
    ZeroDivisionError before any scenario is evaluated, whatever the other
    arguments are. *)
Theorem zero_asset_value_raises :
  (forall (total_amount capital_gain interest_rate : float) (years : Z),
     optimize_funding_mix total_amount (of_Z 0) capital_gain interest_rate years
       = Raise ZeroDivisionError) /\
  (forall (total_amount capital_gain interest_rate : Q) (years : Z),
     optimize_funding_mix total_amount (of_Z 0) capital_gain interest_rate years
       = Raise ZeroDivisionError).
Proof.
  split; intros; reflexivity.
Qed.

(** C8. In binary64 the grid is not always of 11 points: for asset_value 7
    the quotient (7 + 0.7) / 0.7 rounds to 11.000000000000002, so
    [np.arange] makes 12 first-year sales, the last one above the asset
    value, and 12 scenarios are evaluated.  For total_amount=100,
    total_gain=0, interest_rate=0.10, years=2 the twelfth is the one
    returned: it sells more than the asset in year 1 and a negative amount
    in year 2.  The grid of asset_value 350007 has 12 points as well. *)
Theorem grid_of_twelve_points :
  (div (add (of_Z 7) (step (of_Z 7))) (step (of_Z 7)) = 0x1.6000000000001p+3%float /\
   exists grid,
     first_year_sales (A := float) (of_Z 7) = Ok grid /\
     length grid = 12%nat /\
     ltb (of_Z 7) (last grid zero) = true) /\
  (exists all,
     scenarios (A := float) (of_Z 100) (of_Z 7) (of_Z 0) (lit 1 1) 2 = Ok all /\
     length all = 12%nat) /\
  (exists r1 r2,
     optimize_funding_mix (A := float)
       (of_Z 100) (of_Z 7) (of_Z 0) (lit 1 1) 2 = Ok [r1; r2] /\
     ltb (of_Z 7) (Stock_Sold r1) = true /\
     ltb (Stock_Sold r2) zero = true) /\
  (exists all,
     scenarios (A := float)
       (of_Z 1000000) (of_Z 350007) (of_Z 300000) (lit 7 2) 5 = Ok all /\
     length all = 12%nat).
Proof.
  split; [split; [vm_compute; reflexivity|]|split; [|split]];
    repeat eexists; vm_compute; reflexivity.
Qed.

(** C2 fails as stated.  For total_amount=100000, asset_value=50000,
    total_gain=40000, interest_rate=0.10, years=2 the scenario that sells
    everything in year 1 (the one returned) has in year 2 the credit balance
    100000, while total_amount minus the amount sold through year 2 is
    50000. *)
Lemma credit_balance_is_not_cumulative :
  (exists all cost rows r,
     scenarios (A := Q) (of_Z 100000) (of_Z 50000) (of_Z 40000) (lit 1 1) 2
       = Ok all /\
     In (cost, rows) all /\
     optimize_funding_mix (A := Q)
       (of_Z 100000) (of_Z 50000) (of_Z 40000) (lit 1 1) 2 = Ok rows /\
     nth_error rows 1 = Some r /\
     LOC_Used r == 100000 /\
     100000 - cumulative_sold rows 2 == 50000 /\
     ~ LOC_Used r == 100000 - cumulative_sold rows 2) /\
  (exists rows r,
     optimize_funding_mix (A := float)
       (of_Z 100000) (of_Z 50000) (of_Z 40000) (lit 1 1) 2 = Ok rows /\
     nth_error rows 1 = Some r /\
     LOC_Used r = 100000%float /\
     sub (of_Z 100000) (cumulative_sold rows 2) = 50000%float).
Proof.
  split.
  - eexists _, _, _, _. split; [vm_compute; reflexivity|].
    split; [do 10 right; left; reflexivity|].
    split; [vm_compute; reflexivity|].
    split; [reflexivity|].
    repeat split; vm_compute; congruence.
  - eexists _, _. split; [vm_compute; reflexivity|].
    split; [reflexivity|]. split; vm_compute; reflexivity.
Qed.

Lemma credit_balance_counts_one_year_sale_witness :
  exists all cost rows r r',
    scenarios (A := float) (of_Z 100000) (of_Z 50000) (of_Z 40000) (lit 1 1) 2
      = Ok all /\
    In (cost, rows) all /\
    nth_error rows 0 = Some r /\
    nth_error rows 1 = Some r' /\
    LOC_Used r = sub (of_Z 100000) (Stock_Sold r) /\
    Interest_Paid r' = mul (sub (of_Z 100000) (Stock_Sold r)) (lit 1 1).
Proof.
  eexists _, _, _, _, _.
  split; [vm_compute; reflexivity|].
  split; [do 4 right; left; reflexivity|].
  split; [reflexivity|]. split; [reflexivity|].
  edestruct (credit_balance_counts_one_year_sale (A := float)
               (of_Z 100000) (of_Z 50000) (of_Z 40000) (lit 1 1) 2)
    as (f & Hrows & Hall);
    [vm_compute; reflexivity | do 4 right; left; reflexivity |].
  destruct (Hall 0%nat _ eq_refl) as (Hloc & Hbal & Hnext).
  split; [exact Hloc|].
  rewrite (Hnext _ eq_refl), Hbal. reflexivity.
Defined.

Lemma interest_follows_previous_year_sale_witness :
  exists all cost rows r r',
    scenarios (A := float) (of_Z 100000) (of_Z 50000) (of_Z 40000) (lit 1 1) 2
      = Ok all /\
    In (cost, rows) all /\
    nth_error rows 0 = Some r /\
    nth_error rows 1 = Some r' /\
    Interest_Paid r = mul (of_Z 100000) (lit 1 1) /\
    Interest_Paid r' = mul (sub (of_Z 100000) (Stock_Sold r)) (lit 1 1).
Proof.
  eexists _, _, _, _, _.
  split; [vm_compute; reflexivity|].
  split; [do 4 right; left; reflexivity|].
  split; [reflexivity|]. split; [reflexivity|].
  edestruct (interest_follows_previous_year_sale (A := float)
               (of_Z 100000) (of_Z 50000) (of_Z 40000) (lit 1 1) 2)
    as (_ & Hfirst & Hlater);
    [vm_compute; reflexivity | do 4 right; left; reflexivity |].
  split; [apply Hfirst; reflexivity|].
  apply (Hlater 0%nat); reflexivity.
Defined.





(** C7 fails as stated.  With years = 0 no error is raised: the result is
    the empty schedule, in exact arithmetic and in binary64. *)
Lemma zero_years_is_not_rejected :
  (0 < 1)%Z /\
  (optimize_funding_mix (A := Q)
     (of_Z 100000) (of_Z 50000) (of_Z 40000) (lit 1 1) 0 = Ok [] /\
   forall e,
     optimize_funding_mix (A := Q)
       (of_Z 100000) (of_Z 50000) (of_Z 40000) (lit 1 1) 0 <> Raise e) /\
  (optimize_funding_mix (A := float)
     (of_Z 100000) (of_Z 50000) (of_Z 40000) (lit 1 1) 0 = Ok [] /\
   forall e,
     optimize_funding_mix (A := float)
       (of_Z 100000) (of_Z 50000) (of_Z 40000) (lit 1 1) 0 <> Raise e).
Proof.
  split; [lia|].
  split; (split; [vm_compute; reflexivity | intros e; vm_compute; discriminate]).
Qed.

Lemma short_horizon_gives_empty_schedule_witness :
  optimize_funding_mix (A := Q)
    (of_Z 100000) (of_Z 50000) (of_Z 40000) (lit 1 1) (-3) = Ok [].
Proof.
  assert (Hyears : (-3 < 1)%Z) by lia.
  assert (Hsv : ~ of_Z 50000 == 0) by (vm_compute; lia).
  exact (short_horizon_gives_empty_schedule (of_Z 100000) (of_Z 50000)
           (of_Z 40000) (lit 1 1) (-3) Hyears Hsv).
Defined.

(** * Further properties of the tax calculator, in exact arithmetic *)

Section ExactTax.

Open Scope Q_scope.

(** Unfolds the bracket walk on the two tables of the source and shows its
    constants as fractions. *)
Ltac walk_tables :=
  unfold calculate_tax_impact, calculate_bracket_tax,
    federal_brackets, federal_rates, bc_brackets, bc_rates;
  cbn [map seq length Nat.sub Nat.add bracket_loop nth last];
  unfold gtb;
  repeat match goal with
         | |- context [@lit Q Q_PyNum ?m ?k] =>
             let v := eval vm_compute in (@lit Q Q_PyNum m k) in
             change (@lit Q Q_PyNum m k) with v
         end;
  change (@zero Q Q_PyNum) with 0;
  change (@of_Z Q Q_PyNum) with inject_Z;
  change (@add Q Q_PyNum) with Qplus;
  change (@sub Q Q_PyNum) with Qminus;
  change (@mul Q Q_PyNum) with Qmult;
  change (@ltb Q Q_PyNum) with QNum.ltb;
  unfold inject_Z.

(** Decides the comparisons of the walk from the hypotheses. *)
Ltac decide_walk :=
  repeat match goal with
         | |- context [if QNum.ltb ?a ?b then _ else _] =>
             let H := fresh "Hcmp" in
             destruct (QNum.ltb a b) eqn:H;
             [apply Qltb_true in H | apply Qltb_false in H];
             try (exfalso; lra)
         end.

Lemma tax_of_nonpositive_gain (capital_gain : Q) :
  capital_gain <= 0 ->
  calculate_tax_impact capital_gain == capital_gain * (1003 # 10000).
Proof.
  intros Hgain. walk_tables. decide_walk. lra.
Qed.

Lemma tax_within_first_brackets (capital_gain : Q) :
  0 <= capital_gain ->
  capital_gain <= 91308 ->
  calculate_tax_impact capital_gain
    == capital_gain * (1 # 2) *
         ((15 # 100) + (33 # 100) + (506 # 10000) + (205 # 1000)).
Proof.
  intros Hlo Hhi. walk_tables. decide_walk; lra.
Qed.

(** X3. Above the last threshold of both tables (a gain over 481432) the
    loop ends without [break] and the result is the marginal-rate tax: each
    bracket at its own rate and the excess over the last threshold at the
    last rate, in both tables. *)
Theorem tax_above_all_thresholds (capital_gain : Q) :
  481432 < capital_gain ->
  calculate_tax_impact capital_gain
    == (53359 * (15 # 100) + (106717 - 53359) * (205 # 1000)
        + (165430 - 106717) * (26 # 100) + (235675 - 165430) * (29 # 100)
        + (capital_gain * (1 # 2) - 235675) * (33 # 100))
       + (45654 * (506 # 10000) + (91310 - 45654) * (77 # 1000)
          + (104835 - 91310) * (105 # 1000) + (127299 - 104835) * (1229 # 10000)
          + (172602 - 127299) * (147 # 1000) + (240716 - 172602) * (168 # 1000)
          + (capital_gain * (1 # 2) - 240716) * (205 # 1000)).
Proof.
  intros Hgain. walk_tables. decide_walk; lra.
Qed.

(** With rates between 0 and [top], the walk adds at most [top] times the
    amount it was given and leaves no more than that amount. *)
Lemma bracket_loop_bound (top : Q) (brackets rates : list Q) (idx : list nat)
    (tax remaining : Q) :
  (forall i, In i idx -> 0 <= nth (i + 1) brackets 0 - nth i brackets 0) ->
  (forall i, 0 <= nth i rates 0 /\ nth i rates 0 <= top) ->
  0 <= remaining ->
  fst (bracket_loop brackets rates idx tax remaining) <= tax + top * remaining /\
  0 <= snd (bracket_loop brackets rates idx tax remaining) /\
  snd (bracket_loop brackets rates idx tax remaining) <= remaining.
Proof.
  intros Hsize Hrate. revert tax remaining.
  induction idx as [|i idx IH]; intros tax remaining Hrem; cbn [bracket_loop].
  - cbn [fst snd]. destruct (Hrate 0%nat) as [H0 Htop].
    assert (0 <= top) by lra. nra.
  - pose proof (Hsize i (or_introl eq_refl)) as Hi.
    destruct (Hrate i) as [Hr0 Hr1].
    unfold gtb. change (@zero Q Q_PyNum) with 0 in *.
    change (@ltb Q Q_PyNum) with QNum.ltb.
    change (@sub Q Q_PyNum) with Qminus. change (@add Q Q_PyNum) with Qplus.
    change (@mul Q Q_PyNum) with Qmult.
    destruct (QNum.ltb _ remaining) eqn:Hcmp.
    + apply Qltb_true in Hcmp.
      destruct (IH (fun j Hj => Hsize j (or_intror Hj))
                  (tax + (nth (i + 1) brackets 0 - nth i brackets 0) * nth i rates 0)
                  (remaining - (nth (i + 1) brackets 0 - nth i brackets 0)))
        as (Hfst & Hsnd0 & Hsnd1); [lra|].
      split; [|split; [exact Hsnd0 | lra]].
      eapply Qle_trans; [exact Hfst|]. nra.
    + cbn [fst snd]. split; [nra | split; [exact Hrem | apply Qle_refl]].
Qed.

Lemma nth_between (top : Q) (l : list Q) :
  0 <= top ->
  Forall (fun x => 0 <= x /\ x <= top) l ->
  forall i, 0 <= nth i l 0 /\ nth i l 0 <= top.
Proof.
  intros Htop Hl i. destruct (Nat.lt_ge_cases i (length l)) as [Hlt|Hge].
  - apply (proj1 (Forall_forall _ l) Hl), nth_In, Hlt.
  - rewrite nth_overflow by exact Hge. split; [apply Qle_refl | exact Htop].
Qed.

Lemma calculate_bracket_tax_bound (top : Q) (amount : Q) (brackets rates : list Q) :
  (forall i, In i (seq 0 (length brackets - 1)) ->
     0 <= nth (i + 1) brackets 0 - nth i brackets 0) ->
  0 <= top ->
  Forall (fun x => 0 <= x /\ x <= top) rates ->
  last rates 0 <= top ->
  0 <= amount ->
  calculate_bracket_tax amount brackets rates <= (top + top) * amount.
Proof.
  intros Hsize Htop Hrates Hlast Hamount. unfold calculate_bracket_tax.
  destruct (bracket_loop_bound top brackets rates (seq 0 (length brackets - 1))
              0 amount Hsize (nth_between top rates Htop Hrates) Hamount)
    as (Hfst & Hsnd0 & Hsnd1).
  change (@zero Q Q_PyNum) with 0.
  destruct (bracket_loop brackets rates _ 0 amount) as [tax remaining].
  cbn [fst snd] in *. unfold gtb. change (@ltb Q Q_PyNum) with QNum.ltb.
  change (@add Q Q_PyNum) with Qplus. change (@mul Q Q_PyNum) with Qmult.
  destruct (QNum.ltb 0 remaining); nra.
Qed.

(** X4. The tax of a non-negative gain is non-negative and at most 53.5%
    of the gain: each table charges at most its highest rate in the walk
    and once more its last rate after it. *)
Theorem tax_between_zero_and_gain_share (capital_gain : Q) :
  0 <= capital_gain ->
  0 <= calculate_tax_impact capital_gain /\
  calculate_tax_impact capital_gain <= capital_gain * (535 # 1000).
Proof.
  intros Hgain. split; [apply calculate_tax_impact_nonneg, Hgain|].
  unfold calculate_tax_impact.
  assert (Htaxable : 0 <= mul capital_gain (lit 5 1)).
  { change (0 <= capital_gain * (5 # 10)). lra. }
  assert (Hfederal : calculate_bracket_tax (mul capital_gain (lit 5 1))
                       federal_brackets federal_rates
                     <= ((33 # 100) + (33 # 100)) * mul capital_gain (lit 5 1)).
  { apply calculate_bracket_tax_bound; try exact Htaxable.
    - intros i Hi. simpl in Hi.
      repeat (destruct Hi as [<- | Hi]; [vm_compute; discriminate|]). contradiction.
    - discriminate.
    - repeat constructor; vm_compute; discriminate.
    - vm_compute; discriminate. }
  assert (Hprovincial : calculate_bracket_tax (mul capital_gain (lit 5 1))
                          bc_brackets bc_rates
                        <= ((205 # 1000) + (205 # 1000)) * mul capital_gain (lit 5 1)).
  { apply calculate_bracket_tax_bound; try exact Htaxable.
    - intros i Hi. simpl in Hi.
      repeat (destruct Hi as [<- | Hi]; [vm_compute; discriminate|]). contradiction.
    - discriminate.
    - repeat constructor; vm_compute; discriminate.
    - vm_compute; discriminate. }
  change (@add Q Q_PyNum) with Qplus.
  change (mul capital_gain (lit 5 1)) with (capital_gain * (5 # 10)) in *.
  lra.
Qed.

(** X1. A gain that is not positive is not rejected: it is taxed at the
    first rates of the two tables on half of it, so the result is 10.03% of
    the gain, zero for a zero gain and negative for a negative one. *)
Theorem nonpositive_gain_is_taxed_linearly (capital_gain : Q) :
  capital_gain <= 0 ->
  calculate_tax_impact capital_gain == capital_gain * (1003 # 10000) /\
  calculate_tax_impact capital_gain <= 0 /\
  (capital_gain < 0 -> calculate_tax_impact capital_gain < 0).
Proof.
  intros Hgain. pose proof (tax_of_nonpositive_gain capital_gain Hgain) as Htax.
  split; [exact Htax|]. split.
  - rewrite Htax. lra.
  - intros Hneg. rewrite Htax. lra.
Qed.

(** X2. While half the gain stays within the first bracket of both tables
    (a gain up to 91308), the tax is 36.78% of the gain: the first rates
    0.15 and 0.0506 and, from the statement after the loop, the last rates
    0.33 and 0.205 on the same base.  On this range the tax grows with the
    gain. *)
Theorem first_bracket_gain_is_taxed_at_four_rates (g1 g2 : Q) :
  0 <= g1 -> g1 <= g2 -> g2 <= 91308 ->
  calculate_tax_impact g1 == g1 * (3678 # 10000) /\
  calculate_tax_impact g2 == g2 * (3678 # 10000) /\
  calculate_tax_impact g1 <= calculate_tax_impact g2.
Proof.
  intros Hlo Hle Hhi.
  assert (H1 : calculate_tax_impact g1 == g1 * (3678 # 10000)).
  { rewrite tax_within_first_brackets by lra. ring. }
  assert (H2 : calculate_tax_impact g2 == g2 * (3678 # 10000)).
  { rewrite tax_within_first_brackets by lra. ring. }
  split; [exact H1|]. split; [exact H2|]. rewrite H1, H2. lra.
Qed.

End ExactTax.

(** * Further properties of the optimiser, in every arithmetic *)

Section GenericResult.

Context {A : Type} `{PyNum A}.

Variables (total_amount stock_value capital_gain interest_rate : A).
Variable (years : Z).

Lemma fold_year_body_years (first_year_sale yearly_sale : A) (range : list nat)
    (st : loop_state) :
  map Year
    (scenario_detail
       (fold_left
          (year_body total_amount stock_value capital_gain interest_rate
             first_year_sale yearly_sale) range st))
    = map Year (scenario_detail st) ++ map (fun y => (Z.of_nat y + 1)%Z) range.
Proof.
  revert st. induction range as [|y range IH]; intros st; cbn [fold_left map].
  - rewrite app_nil_r. reflexivity.
  - rewrite IH. cbn [scenario_detail year_body].
    rewrite map_app, <- app_assoc. reflexivity.
Qed.

Lemma fold_year_body_cost (first_year_sale yearly_sale : A) (range : list nat)
    (st : loop_state) :
  scenario_cost st = fold_left add (map Total_Cost (scenario_detail st)) zero ->
  scenario_cost
    (fold_left
       (year_body total_amount stock_value capital_gain interest_rate
          first_year_sale yearly_sale) range st)
    = fold_left add
        (map Total_Cost
           (scenario_detail
              (fold_left
                 (year_body total_amount stock_value capital_gain interest_rate
                    first_year_sale yearly_sale) range st)))
        zero.
Proof.
  revert st. induction range as [|y range IH]; intros st Hst; cbn [fold_left].
  - exact Hst.
  - apply IH. cbn [scenario_cost scenario_detail year_body].
    rewrite map_app, fold_left_app, <- Hst. reflexivity.
Qed.

Lemma rows_follow_In (prior_balance : A) (rows : list (YearlyRecord A))
    (r : YearlyRecord A) :
  rows_follow total_amount stock_value capital_gain interest_rate prior_balance rows ->
  In r rows ->
  exists balance,
    row_follows total_amount stock_value capital_gain interest_rate balance r.
Proof.
  revert prior_balance. induction rows as [|r0 rows IH]; intros prior Hrows Hr;
    [contradiction|].
  destruct Hrows as [H0 Hrest]. destruct Hr as [<- | Hr].
  - exists prior. exact H0.
  - apply (IH _ Hrest Hr).
Qed.

(** X5. A returned schedule has one row per year of the horizon, numbered
    1, 2, ..., years in this order (no row when years is below 1). *)
Theorem result_has_one_row_per_year (rows : list (YearlyRecord A)) :
  optimize_funding_mix total_amount stock_value capital_gain interest_rate years
    = Ok rows ->
  length rows = Z.to_nat years /\
  map Year rows = map (fun y => (Z.of_nat y + 1)%Z) (seq 0 (Z.to_nat years)).
Proof.
  intros Hrows.
  destruct (optimize_funding_mix_inv _ _ _ _ _ _ Hrows) as (_ & f & _ & _ & ->).
  split; [apply evaluate_scenario_length|].
  unfold evaluate_scenario, run_years. cbn [snd].
  rewrite fold_year_body_years. reflexivity.
Qed.

(** X6. In every row of a returned schedule the total cost is the tax plus
    the interest, and the tax is [calculate_tax_impact] of the gain in
    proportion to the amount sold in that row (of zero when the asset value
    is not positive). *)
Theorem result_rows_are_consistent (rows : list (YearlyRecord A))
    (r : YearlyRecord A) :
  optimize_funding_mix total_amount stock_value capital_gain interest_rate years
    = Ok rows ->
  In r rows ->
  Total_Cost r = add (Tax_Paid r) (Interest_Paid r) /\
  Tax_Paid r =
    calculate_tax_impact
      (if gtb stock_value zero
       then mul (div (Stock_Sold r) stock_value) capital_gain else zero).
Proof.
  intros Hrows Hr.
  destruct (optimize_funding_mix_inv _ _ _ _ _ _ Hrows) as (_ & f & _ & _ & ->).
  destruct (rows_follow_In _ _ _
              (evaluate_scenario_follows total_amount stock_value capital_gain
                 interest_rate years f) Hr)
    as (balance & _ & _ & Htax & Hcost).
  split; [exact Hcost | exact Htax].
Qed.

(** X7. The cost by which a scenario is ranked is the sum of the total costs
    of its rows, added from the first year on. *)
Theorem scenario_cost_is_sum_of_rows
    (all : list (A * list (YearlyRecord A))) (cost : A)
    (rows : list (YearlyRecord A)) :
  scenarios total_amount stock_value capital_gain interest_rate years = Ok all ->
  In (cost, rows) all ->
  cost = column_sum (map Total_Cost rows).
Proof.
  intros Hall Hin.
  destruct (scenarios_In _ _ _ _ _ _ _ _ Hall Hin) as (grid & f & _ & _ & Heq).
  unfold evaluate_scenario in Heq. injection Heq as -> ->.
  unfold run_years, column_sum. apply fold_year_body_cost. reflexivity.
Qed.

(** X8. When the asset value is not positive (or not a number) the guard of
    the proportional gain gives 0 in every year, so every row of a returned
    schedule carries the tax of a zero gain. *)
Theorem nonpositive_asset_value_has_zero_gain (rows : list (YearlyRecord A))
    (r : YearlyRecord A) :
  gtb stock_value zero = false ->
  optimize_funding_mix total_amount stock_value capital_gain interest_rate years
    = Ok rows ->
  In r rows ->
  Tax_Paid r = calculate_tax_impact zero.
Proof.
  intros Hguard Hrows Hr.
  destruct (optimize_funding_mix_inv _ _ _ _ _ _ Hrows) as (_ & f & _ & _ & ->).
  destruct (rows_follow_In _ _ _
              (evaluate_scenario_follows total_amount stock_value capital_gain
                 interest_rate years f) Hr)
    as (balance & _ & _ & Htax & _).
  rewrite Htax. unfold year_capital_gain. rewrite Hguard. reflexivity.
Qed.

End GenericResult.

(** * Further properties of the optimiser, in exact arithmetic *)

Section ExactResult.

Open Scope Q_scope.

(** The scan of [min]: the candidate kept is the first of least cost. *)
Lemma min_fold_spec (T : Type) (l : list (Q * T)) (b : Q * T) :
  (fold_left (fun best y => if ltb (fst y) (fst best) then y else best) l b = b /\
   forall y, In y l -> fst b <= fst y) \/
  (exists l1 l2,
     l = l1 ++
           fold_left (fun best y => if ltb (fst y) (fst best) then y else best) l b
           :: l2 /\
     fst (fold_left (fun best y => if ltb (fst y) (fst best) then y else best) l b)
       < fst b /\
     (forall y, In y l1 ->
        fst (fold_left (fun best y => if ltb (fst y) (fst best) then y else best) l b)
          < fst y) /\
     (forall y, In y l2 ->
        fst (fold_left (fun best y => if ltb (fst y) (fst best) then y else best) l b)
          <= fst y)).
Proof.
  revert b. induction l as [|x l IH]; intros b; cbn [fold_left].
  - left. split; [reflexivity | intros y []].
  - change (@ltb Q Q_PyNum) with QNum.ltb in *.
    destruct (QNum.ltb (fst x) (fst b)) eqn:Hcmp.
    + apply Qltb_true in Hcmp. right.
      destruct (IH x) as [[Heq Hall] | (l1 & l2 & Hl & Hlt & H1 & H2)].
      * exists [], l. rewrite Heq. repeat split; auto. intros y [].
      * exists (x :: l1), l2. split; [cbn [app]; f_equal; exact Hl|].
        split; [lra|]. split; [|exact H2].
        intros y [<- | Hy]; [exact Hlt | apply H1, Hy].
    + apply Qltb_false in Hcmp.
      destruct (IH b) as [[Heq Hall] | (l1 & l2 & Hl & Hlt & H1 & H2)].
      * left. split; [exact Heq|]. intros y [<- | Hy]; [exact Hcmp | apply Hall, Hy].
      * right. exists (x :: l1), l2. split; [cbn [app]; f_equal; exact Hl|].
        split; [exact Hlt|]. split; [|exact H2].
        intros y [<- | Hy]; [lra | apply H1, Hy].
Qed.

Lemma min_by_cost_spec (T : Type) (xs : list (Q * T)) (r : Q * T) :
  min_by_cost xs = Ok r ->
  exists before after,
    xs = before ++ r :: after /\
    (forall y, In y before -> fst r < fst y) /\
    (forall y, In y after -> fst r <= fst y).
Proof.
  destruct xs as [|x rest]; unfold min_by_cost; [discriminate|].
  intros Hr. injection Hr as Hr.
  pose proof (min_fold_spec T rest x) as Hspec.
  change (@ltb Q Q_PyNum) with QNum.ltb in Hspec. rewrite Hr in Hspec.
  destruct Hspec as [[Heq Hall] | (l1 & l2 & Hl & Hlt & H1 & H2)].
  - exists [], rest. rewrite Heq. split; [reflexivity|].
    split; [intros y [] | exact Hall].
  - exists (x :: l1), l2. split; [cbn [app]; f_equal; exact Hl|].
    split; [|exact H2]. intros y [<- | Hy]; [exact Hlt | apply H1, Hy].
Qed.

(** X10. The schedule returned is that of a scenario of least cost: every
    scenario generated before it costs strictly more and none generated
    after it costs less, so ties go to the lowest first-year sale. *)
Theorem optimum_is_first_of_least_cost
    (total_amount stock_value capital_gain interest_rate : Q) (years : Z)
    (rows : list (YearlyRecord Q)) :
  optimize_funding_mix total_amount stock_value capital_gain interest_rate years
    = Ok rows ->
  exists all cost before after,
    scenarios total_amount stock_value capital_gain interest_rate years = Ok all /\
    all = before ++ (cost, rows) :: after /\
    (forall c rs, In (c, rs) before -> cost < c) /\
    (forall c rs, In (c, rs) after -> cost <= c).
Proof.
  unfold optimize_funding_mix.
  destruct (scenarios total_amount stock_value capital_gain interest_rate years)
    as [all|e]; cbn [bind]; [|discriminate].
  destruct (min_by_cost all) as [[cost rows']|e] eqn:Hmin; cbn [bind snd];
    [|discriminate].
  intros Hrows. injection Hrows as ->.
  destruct (min_by_cost_spec _ all _ Hmin) as (before & after & Hall & Hb & Ha).
  exists all, cost, before, after. split; [reflexivity|]. split; [exact Hall|].
  split; intros c rs Hin; [apply (Hb _ Hin) | apply (Ha _ Hin)].
Qed.






Lemma optimize_funding_mix_min
    (total_amount stock_value capital_gain interest_rate : Q) (years : Z)
    (rows : list (YearlyRecord Q)) :
  optimize_funding_mix total_amount stock_value capital_gain interest_rate years
    = Ok rows ->
  exists grid cost,
    first_year_sales stock_value = Ok grid /\
    min_by_cost
      (map (evaluate_scenario total_amount stock_value capital_gain interest_rate
              years) grid)
      = Ok (cost, rows).
Proof.
  unfold optimize_funding_mix, scenarios.
  destruct (first_year_sales stock_value) as [grid|e]; cbn [bind]; [|discriminate].
  destruct (min_by_cost _) as [[cost rows']|e] eqn:Hmin; cbn [bind snd];
    [|discriminate].
  intros Hrows. injection Hrows as ->. exists grid, cost. auto.
Qed.


Lemma first_year_sales_head (stock_value : Q) :
  ~ stock_value == 0 ->
  exists tail, first_year_sales stock_value = Ok (0 :: tail).
Proof.
  intros Hsv. unfold first_year_sales, np_arange.
  rewrite (arange_length_exact stock_value Hsv). cbn [bind].
  change (Z.to_nat 11) with 11%nat. cbn [arange_fill].
  eexists. reflexivity.
Qed.

Lemma year_capital_gain_exact (stock_value capital_gain stock_sold : Q) :
  0 < stock_value ->
  year_capital_gain stock_value capital_gain stock_sold
    = stock_sold / stock_value * capital_gain.
Proof.
  intros Hsv. unfold year_capital_gain, gtb.
  change (@ltb Q Q_PyNum) with QNum.ltb. change (@zero Q Q_PyNum) with 0.
  rewrite (proj2 (Qltb_true 0 stock_value) Hsv). reflexivity.
Qed.

Lemma year_capital_gain_bounds (stock_value capital_gain stock_sold : Q) :
  0 < stock_value ->
  0 <= capital_gain ->
  0 <= stock_sold -> stock_sold <= stock_value ->
  0 <= stock_sold / stock_value * capital_gain /\
  stock_sold / stock_value * capital_gain <= capital_gain.
Proof.
  intros Hsv Hgain Hs0 Hs1.
  assert (Hq0 : 0 <= stock_sold / stock_value)
    by (apply Qle_shift_div_l; [exact Hsv | lra]).
  assert (Hq1 : stock_sold / stock_value <= 1)
    by (apply Qle_shift_div_r; [exact Hsv | lra]).
  split; nra.
Qed.

Section ExactCost.

Variables (total_amount stock_value capital_gain interest_rate : Q).
Variable (years : Z).


Variable (first_year_sale : Q).

Hypothesis first_year_sale_le : first_year_sale <= stock_value.

Lemma scenario_cost_one_year :
  years = 1%Z ->
  fst (evaluate_scenario total_amount stock_value capital_gain interest_rate
         years first_year_sale)
    == calculate_tax_impact
         (year_capital_gain stock_value capital_gain first_year_sale)
       + total_amount * interest_rate.
Proof.
  intros ->. unfold evaluate_scenario, run_years.
  change (Z.to_nat 1) with 1%nat.
  cbn [seq fold_left fst scenario_cost year_body initial_state loc_balance Nat.eqb].
  change (@add Q Q_PyNum zero) with (Qplus 0).
  rewrite Qplus_0_l. reflexivity.
Qed.


End ExactCost.



(** X11. With a one-year horizon, a positive asset value and a gain that is
    not negative, the schedule returned is the one that sells nothing: a
    sale only adds tax, and among equal costs the first scenario wins.  Its
    single row has the credit balance total_amount, no tax and the interest
    total_amount * interest_rate. *)
Theorem one_year_horizon_sells_nothing
    (total_amount stock_value capital_gain interest_rate : Q) :
  0 < stock_value ->
  0 <= capital_gain ->
  exists r,
    optimize_funding_mix total_amount stock_value capital_gain interest_rate 1
      = Ok [r] /\
    Year r = 1%Z /\
    Stock_Sold r == 0 /\
    LOC_Used r == total_amount /\
    Tax_Paid r == 0 /\
    Interest_Paid r == total_amount * interest_rate.
Proof.
  intros Hsv Hgain.
  assert (Hne : ~ stock_value == 0) by lra.
  destruct (first_year_sales_head stock_value Hne) as (tail & Hgrid).
  destruct (optimize_funding_mix_total total_amount stock_value capital_gain
              interest_rate 1 _ Hgrid ltac:(discriminate)) as (rows & Hrows).
  destruct (optimize_funding_mix_min _ _ _ _ _ _ Hrows) as (grid & cost & Hgrid' & Hmin).
  rewrite Hgrid in Hgrid'. injection Hgrid' as <-.
  destruct (grid_bounds stock_value _ Hsv Hgrid) as [_ Hbounds].
  assert (Hzero : calculate_tax_impact
                    (year_capital_gain stock_value capital_gain 0) == 0).
  { rewrite year_capital_gain_exact by exact Hsv.
    rewrite tax_of_nonpositive_gain; [field; exact Hne|].
    setoid_replace (0 / stock_value * capital_gain) with 0 by (field; exact Hne).
    apply Qle_refl. }
  assert (Hhead : rows = snd (evaluate_scenario total_amount stock_value
                                capital_gain interest_rate 1 0)).
  { destruct (min_by_cost_spec _ _ _ Hmin) as (before & after & Hall & Hb & _).
    destruct before as [|b before].
    - cbn [map app] in Hall.
      assert (Hfirst : evaluate_scenario total_amount stock_value capital_gain
                         interest_rate 1 0 = (cost, rows)) by congruence.
      rewrite Hfirst. reflexivity.
    - exfalso. cbn [map app] in Hall.
      assert (Hb0 : b = evaluate_scenario total_amount stock_value capital_gain
                          interest_rate 1 0) by congruence.
      assert (Htail : map (evaluate_scenario total_amount stock_value capital_gain
                             interest_rate 1) tail
                      = before ++ (cost, rows) :: after) by congruence.
      pose proof (Hb b (or_introl eq_refl)) as Hlt. rewrite Hb0 in Hlt.
      cbn [fst] in Hlt.
      rewrite (scenario_cost_one_year total_amount stock_value capital_gain
                 interest_rate 1 0 eq_refl), Hzero in Hlt.
      assert (Hin : In (cost, rows)
                      (map (evaluate_scenario total_amount stock_value capital_gain
                              interest_rate 1) tail)).
      { rewrite Htail. apply in_or_app. right. left. reflexivity. }
      apply in_map_iff in Hin. destruct Hin as (f & Heq & Hf).
      destruct (proj1 (Forall_forall _ _) Hbounds f (or_intror Hf)) as [Hf0 Hf1].
      assert (Hcost : cost == calculate_tax_impact
                                (year_capital_gain stock_value capital_gain f)
                              + total_amount * interest_rate).
      { rewrite <- (scenario_cost_one_year total_amount stock_value capital_gain
                      interest_rate 1 f eq_refl), Heq. reflexivity. }
      pose proof (calculate_tax_impact_nonneg
                    (year_capital_gain stock_value capital_gain f)) as Htax.
      rewrite year_capital_gain_exact in Htax, Hcost by exact Hsv.
      destruct (year_capital_gain_bounds stock_value capital_gain f Hsv Hgain
                  Hf0 Hf1) as [Hg0 _].
      specialize (Htax Hg0). lra. }
  rewrite Hhead in Hrows.
  unfold evaluate_scenario, run_years in Hrows. change (Z.to_nat 1) with 1%nat in Hrows.
  cbn [seq fold_left snd scenario_detail year_body initial_state loc_balance
         Nat.eqb app] in Hrows.
  eexists. split; [exact Hrows|]. cbn [Year Stock_Sold LOC_Used Tax_Paid Interest_Paid].
  split; [reflexivity|]. split; [reflexivity|].
  split; [change (total_amount - 0 == total_amount); ring|].
  split; [exact Hzero | reflexivity].
Qed.



End ExactResult.

(** * Instances of the further properties *)

Section Instances.

Open Scope Q_scope.

Lemma nonpositive_gain_is_taxed_linearly_witness :
  calculate_tax_impact (A := Q) (-10000) == -10000 * (1003 # 10000) /\
  calculate_tax_impact (A := Q) (-10000) <= 0 /\
  (-10000 < 0 -> calculate_tax_impact (A := Q) (-10000) < 0).
Proof.
  assert (Hgain : -10000 <= 0) by (vm_compute; discriminate).
  exact (nonpositive_gain_is_taxed_linearly (-10000) Hgain).
Defined.

Lemma first_bracket_gain_is_taxed_at_four_rates_witness :
  calculate_tax_impact (A := Q) 50000 == 50000 * (3678 # 10000) /\
  calculate_tax_impact (A := Q) 91308 == 91308 * (3678 # 10000) /\
  calculate_tax_impact (A := Q) 50000 <= calculate_tax_impact (A := Q) 91308.
Proof.
  assert (H0 : 0 <= 50000) by (vm_compute; discriminate).
  assert (H1 : 50000 <= 91308) by (vm_compute; discriminate).
  assert (H2 : 91308 <= 91308) by (vm_compute; discriminate).
  exact (first_bracket_gain_is_taxed_at_four_rates 50000 91308 H0 H1 H2).
Defined.

Lemma tax_above_all_thresholds_witness :
  calculate_tax_impact (A := Q) 600000
    == (53359 * (15 # 100) + (106717 - 53359) * (205 # 1000)
        + (165430 - 106717) * (26 # 100) + (235675 - 165430) * (29 # 100)
        + (600000 * (1 # 2) - 235675) * (33 # 100))
       + (45654 * (506 # 10000) + (91310 - 45654) * (77 # 1000)
          + (104835 - 91310) * (105 # 1000) + (127299 - 104835) * (1229 # 10000)
          + (172602 - 127299) * (147 # 1000) + (240716 - 172602) * (168 # 1000)
          + (600000 * (1 # 2) - 240716) * (205 # 1000)).
Proof.
  assert (Hgain : 481432 < 600000) by reflexivity.
  exact (tax_above_all_thresholds 600000 Hgain).
Defined.

Lemma tax_between_zero_and_gain_share_witness :
  0 <= calculate_tax_impact (A := Q) 300000 /\
  calculate_tax_impact (A := Q) 300000 <= 300000 * (535 # 1000).
Proof.
  assert (Hgain : 0 <= 300000) by (vm_compute; discriminate).
  exact (tax_between_zero_and_gain_share 300000 Hgain).
Defined.

Lemma result_has_one_row_per_year_witness :
  exists rows,
    Script.result = Ok rows /\
    length rows = 5%nat /\
    map Year rows = [1; 2; 3; 4; 5]%Z.
Proof.
  eexists. split; [vm_compute; reflexivity|].
  apply (result_has_one_row_per_year (A := float)
           Script.renovation_cost Script.stock_value Script.capital_gain
           Script.interest_rate 5).
  vm_compute; reflexivity.
Defined.

Lemma result_rows_are_consistent_witness :
  exists rows r,
    Script.result = Ok rows /\
    In r rows /\
    Total_Cost r = add (Tax_Paid r) (Interest_Paid r) /\
    Tax_Paid r =
      calculate_tax_impact
        (if gtb Script.stock_value zero
         then mul (div (Stock_Sold r) Script.stock_value) Script.capital_gain
         else zero).
Proof.
  eexists _, _. split; [vm_compute; reflexivity|].
  split; [left; reflexivity|].
  eapply (result_rows_are_consistent (A := float)
           Script.renovation_cost Script.stock_value Script.capital_gain
           Script.interest_rate 5).
  - vm_compute; reflexivity.
  - left; reflexivity.
Defined.

Lemma scenario_cost_is_sum_of_rows_witness :
  exists all cost rows,
    scenarios Script.renovation_cost Script.stock_value Script.capital_gain
      Script.interest_rate 5 = Ok all /\
    In (cost, rows) all /\
    cost = column_sum (map Total_Cost rows).
Proof.
  eexists _, _, _. split; [vm_compute; reflexivity|].
  split; [do 9 right; left; reflexivity|].
  eapply (scenario_cost_is_sum_of_rows (A := float)
           Script.renovation_cost Script.stock_value Script.capital_gain
           Script.interest_rate 5).
  - vm_compute; reflexivity.
  - do 9 right; left; reflexivity.
Defined.

Lemma nonpositive_asset_value_has_zero_gain_witness :
  exists rows r,
    optimize_funding_mix (A := float)
      (of_Z 1000000) (of_Z (-350000)) (of_Z 300000) (lit 7 2) 5 = Ok rows /\
    In r rows /\
    Tax_Paid r = calculate_tax_impact zero /\
    Tax_Paid r = 0%float.
Proof.
  eexists _, _. split; [vm_compute; reflexivity|].
  split; [left; reflexivity|]. split; [|reflexivity].
  eapply (nonpositive_asset_value_has_zero_gain (A := float)
           (of_Z 1000000) (of_Z (-350000)) (of_Z 300000) (lit 7 2) 5).
  - vm_compute; reflexivity.
  - vm_compute; reflexivity.
  - left; reflexivity.
Defined.


Lemma optimum_is_first_of_least_cost_witness :
  exists rows all cost before after,
    optimize_funding_mix (A := Q) 1000000 350000 300000 (7 # 100) 5 = Ok rows /\
    scenarios (A := Q) 1000000 350000 300000 (7 # 100) 5 = Ok all /\
    all = before ++ (cost, rows) :: after /\
    (forall c rs, In (c, rs) before -> cost < c) /\
    (forall c rs, In (c, rs) after -> cost <= c).
Proof.
  assert (Hrun : { rows | optimize_funding_mix (A := Q)
                            1000000 350000 300000 (7 # 100) 5 = Ok rows }).
  { eexists. vm_compute. reflexivity. }
  destruct Hrun as [rows Hrows]. exists rows.
  destruct (optimum_is_first_of_least_cost
              1000000 350000 300000 (7 # 100) 5 rows Hrows)
    as (all & cost & before & after & Hall & Hsplit & Hb & Ha).
  exists all, cost, before, after. auto.
Defined.

Lemma one_year_horizon_sells_nothing_witness :
  exists r,
    optimize_funding_mix (A := Q) 100000 50000 40000 (1 # 10) 1 = Ok [r] /\
    Year r = 1%Z /\
    Stock_Sold r == 0 /\
    LOC_Used r == 100000 /\
    Tax_Paid r == 0 /\
    Interest_Paid r == 100000 * (1 # 10).
Proof.
  assert (Hsv : 0 < 50000) by reflexivity.
  assert (Hgain : 0 <= 40000) by (vm_compute; discriminate).
  exact (one_year_horizon_sells_nothing 100000 50000 40000 (1 # 10) Hsv Hgain).
Defined.




End Instances.
